(** * datax: extraction of tabular records from an XML document

    A shallow embedding of [datax/transform.py]: the two classes
    [FieldExtractor] and [XMLDocTransformer], the Python builtins they
    call, and the part of [xml.etree.ElementTree] they rely on.

    Python exceptions are modelled by an error monad [Result]; a Python
    [dict] with string keys by [gmap string _]; an ElementTree element by
    a rose tree.  The path query engine behind [Element.find] and the
    format mini-language behind [str.format] belong to the Python
    standard library, not to this program: the development is
    parameterised over them (class [Library]) and one small executable
    instance is given so that every function can be run on documents. *)

From stdpp Require Import gmap strings list.
From Stdlib Require Import ZArith Ascii.

Set Warnings "-register-all".

Local Open Scope string_scope.
Local Open Scope Z_scope.
Local Open Scope list_scope.

(** ** Python builtins *)

Module Py.

(** The exceptions that the program raises itself or lets escape. *)
Inductive exception : Type :=
| IndexError                         (* list.pop on an empty list *)
| ValueError (msg : string)
| KeyError (key : string)
| TypeError                          (* iterating over None *)
| AttributeError (attr : string)
| UnboundLocalError (var : string)
| SyntaxError (msg : string)         (* raised by the path engine *)
| NotImplementedError (msg : string).

Inductive Result (A : Type) : Type :=
| Ok (a : A)
| Raise (e : exception).
Arguments Ok {A} a.
Arguments Raise {A} e.

#[global] Instance Result_ret : MRet Result := fun A a => Ok a.

#[global] Instance Result_bind : MBind Result := fun A B k m =>
  match m with
  | Ok a => k a
  | Raise e => Raise e
  end.

Definition is_Ok {A} (m : Result A) : Prop := exists a, m = Ok a.
Definition is_Raise {A} (m : Result A) : Prop := exists e, m = Raise e.

(** [s.split(sep)] for a one-character separator: a string with [n]
    occurrences of [sep] gives [n + 1] parts, empty parts included. *)
Fixpoint split (sep : ascii) (s : string) : list string :=
  match s with
  | EmptyString => [EmptyString]
  | String c rest =>
      if Ascii.eqb c sep then EmptyString :: split sep rest
      else match split sep rest with
           | [] => [String c EmptyString]
           | part :: parts => String c part :: parts
           end
  end.

(** [l.pop(0)]: the first element and the list left behind. *)
Definition pop0 {A} (l : list A) : Result (A * list A) :=
  match l with
  | [] => Raise IndexError
  | x :: l' => Ok (x, l')
  end.

(** [str(value)] where [value] is a string or [None]. *)
Definition str (value : option string) : string :=
  match value with
  | Some s => s
  | None => "None"
  end.

(** [s.startswith(p)] *)
Definition startswith (s p : string) : bool := String.prefix p s.

(** Truth value of an optional string: [None] and [''] are false. *)
Definition truthy (s : option string) : bool :=
  match s with
  | Some (String _ _) => true
  | _ => false
  end.

(** [''.join(parts)] *)
Definition join (parts : list string) : string :=
  foldr String.append EmptyString parts.

(** [enumerate(l)], counting from [start]. *)
Fixpoint enumerate_from {A} (start : Z) (l : list A) : list (Z * A) :=
  match l with
  | [] => []
  | x :: l' => (start, x) :: enumerate_from (start + 1) l'
  end.

Definition enumerate {A} (l : list A) : list (Z * A) := enumerate_from 0 l.

(** [c in s] for a one-character [c]. *)
Fixpoint occurs (c : ascii) (s : string) : bool :=
  match s with
  | EmptyString => false
  | String d rest => Ascii.eqb d c || occurs c rest
  end.

(** Values stored in a record: the index is an [int], fields are [str]. *)
Inductive value : Type :=
| VInt (n : Z)
| VStr (s : string).

End Py.

Export Py.

(** ** The ElementTree data the program reads *)

Module ET.

(** An element: tag, attribute dictionary, text and ordered children. *)
Inductive Element : Type :=
  mkElement (tag : string) (attrib : gmap string string)
            (text : option string) (children : list Element).

Definition tag (e : Element) : string :=
  match e with mkElement t _ _ _ => t end.
Definition attrib (e : Element) : gmap string string :=
  match e with mkElement _ a _ _ => a end.
Definition text (e : Element) : option string :=
  match e with mkElement _ _ t _ => t end.
Definition children (e : Element) : list Element :=
  match e with mkElement _ _ _ c => c end.

(** [element.get(key)]: the attribute or [None]. *)
Definition get (e : Element) (key : string) : option string :=
  attrib e !! key.

(** A parsed document, as returned by [ET.parse]. *)
Record ElementTree : Type := mkElementTree { getroot : Element }.

(** [iter(root)] as used by the [for] statement: an element iterates
    over its direct children, [None] is not iterable. *)
Definition iter (root : option Element) : Result (list Element) :=
  match root with
  | Some e => Ok (children e)
  | None => Raise TypeError
  end.

End ET.

Export ET.

(** ** Standard-library services taken as parameters *)

Class Library : Type := {
  (** [element.find(path)]: the first element matching [path], [None]
      when nothing matches; the engine may reject the path. *)
  Element_find : Element -> string -> Result (option Element);
  (** [template.format(value)] for a template with one replacement
      field. *)
  str_format : string -> option string -> Result string
}.

(** ** class FieldExtractor *)

Module FieldExtractor.

(** [self._formatter] is either the builtin [str] or the bound method
    [format_spec.format]. *)
Inductive formatter : Type :=
| builtin_str
| bound_format (format_spec : string).

Record t : Type := mk {
  _source : string;
  _name : string;
  _formatter : formatter
}.

Definition __init__ (source name : string) (field_format : option string) : t :=
  {| _source := source;
     _name := name;
     _formatter :=
       match field_format with
       | None => builtin_str
       | Some field_format =>
           let format_spec := join ["{:"; field_format; "}"] in
           bound_format format_spec
       end |}.

Definition from_spec (field_spec : string) : Result t :=
  let field_spec_parts := split ":" field_spec in
  '(value_source, field_spec_parts) ← pop0 field_spec_parts;
  '(field_name, field_spec_parts) ← pop0 field_spec_parts;
  field_format ←
    match field_spec_parts with
    | _ :: _ => '(field_format, _) ← pop0 field_spec_parts; Ok (Some field_format)
    | [] => Ok None
    end;
  if negb (String.eqb value_source "attrib" || String.eqb value_source "text")
  then Raise (ValueError ("Invalid value source: " +:+ value_source))
  else Ok (__init__ value_source field_name field_format).

Definition name (self : t) : string := _name self.

Section WithLibrary.
Context `{Library}.

Definition call (f : formatter) (value : option string) : Result string :=
  match f with
  | builtin_str => Ok (str value)
  | bound_format format_spec => str_format format_spec value
  end.

Definition extract (self : t) (element : Element) : Result string :=
  value ←
    (if String.eqb (_source self) "attrib" then
       Ok (get element (_name self))
     else if String.eqb (_source self) "text" then
       child ← Element_find element (_name self);
       match child with
       | Some child => Ok (text child)
       | None => Raise (KeyError (_name self))
       end
     else Raise (UnboundLocalError "value"));
  call (_formatter self) value.

End WithLibrary.

End FieldExtractor.

(** ** class XMLDocTransformer *)

Module XMLDocTransformer.

Record t : Type := mk {
  _index_field : string;
  _fields : list FieldExtractor.t;
  _root_path : option string
}.

(** The list comprehension of [__init__]: the specifications are parsed
    in order and the first failure escapes. *)
Fixpoint parse_field_specs (field_specs : list string) : Result (list FieldExtractor.t) :=
  match field_specs with
  | [] => Ok []
  | field_spec :: rest =>
      field ← FieldExtractor.from_spec field_spec;
      fields ← parse_field_specs rest;
      Ok (field :: fields)
  end.

Definition __init__ (index_field : string) (field_specs : list string)
    (root_path : option string) : Result t :=
  fields ← parse_field_specs field_specs;
  let root_path :=
    match root_path with
    | Some p =>
        if truthy root_path && negb (startswith p ".//")
        then Some (".//" +:+ p)
        else root_path
    | None => root_path
    end in
  Ok {| _index_field := index_field; _fields := fields; _root_path := root_path |}.

(** The values an instance attribute can hold. *)
Inductive attribute : Type :=
| attr_str (v : string)
| attr_fields (v : list FieldExtractor.t)
| attr_path (v : option string).

(** The instance dictionary: exactly the attributes [__init__] assigns. *)
Definition __dict__ (self : t) : gmap string attribute :=
  <["_index_field" := attr_str (_index_field self)]>
    (<["_fields" := attr_fields (_fields self)]>
       (<["_root_path" := attr_path (_root_path self)]> ∅)).

(** [self.<attr>] for an attribute that is not defined on the class. *)
Definition getattr (self : t) (attr : string) : Result attribute :=
  match __dict__ self !! attr with
  | Some v => Ok v
  | None => Raise (AttributeError attr)
  end.

Definition index_field (self : t) : Result attribute :=
  getattr self "_index_field_name".

Definition field_names (self : t) : list string :=
  [_index_field self] ++ (FieldExtractor.name <$> _fields self).

(** [d.update(other)]: the entries of [other] replace those of [d]. *)
Definition update (d other : gmap string value) : gmap string value :=
  other ∪ d.

Section WithLibrary.
Context `{Library}.

(** The dict comprehension [{field.name: field.extract(item) for field
    in fields}]: entries are stored in order, a later entry replaces an
    earlier one with the same key, the first failure escapes. *)
Fixpoint dict_comprehension (fields : list FieldExtractor.t) (item : Element)
    (d : gmap string value) : Result (gmap string value) :=
  match fields with
  | [] => Ok d
  | field :: rest =>
      v ← FieldExtractor.extract field item;
      dict_comprehension rest item (<[FieldExtractor.name field := VStr v]> d)
  end.

(** The body of the [for] loop of [transform]. *)
Definition transform_item (self : t) (index : Z) (item : Element) :
    Result (gmap string value) :=
  let item_dict : gmap string value := {[ _index_field self := VInt index ]} in
  other ← dict_comprehension (_fields self) item ∅;
  Ok (update item_dict other).

(** The [for] loop of [transform], [items] being the list built so
    far. *)
Fixpoint transform_loop (self : t) (pairs : list (Z * Element))
    (items : list (gmap string value)) : Result (list (gmap string value)) :=
  match pairs with
  | [] => Ok items
  | (index, item) :: rest =>
      item_dict ← transform_item self index item;
      transform_loop self rest (items ++ [item_dict])
  end.

(** The first three lines of [transform]: the node whose children
    become the records, [None] when the root path matches nothing. *)
Definition resolve_root (self : t) (xmldoc : ElementTree) :
    Result (option Element) :=
  let root := getroot xmldoc in
  match _root_path self with
  | Some root_path => Element_find root root_path
  | None => Ok (Some root)
  end.

Definition transform (self : t) (xmldoc : ElementTree) :
    Result (list (gmap string value)) :=
  root ← resolve_root self xmldoc;
  children ← iter root;
  transform_loop self (enumerate children) [].

End WithLibrary.

End XMLDocTransformer.

(** ** An executable instance of the library services

    [Element.find] is implemented for the two path shapes the tool is
    used with: a bare tag [t], which selects among the direct children,
    and [.//t], which selects among all proper descendants in document
    order (the element itself is never a match).  [str.format] is
    implemented for the template with an empty directive, which renders
    like [str].  Anything else is outside this instance and is reported
    as [NotImplementedError]. *)

Module Reference.

Definition tag_char (c : ascii) : bool :=
  let n := nat_of_ascii c in
  ((48 <=? n) && (n <=? 57))%nat || ((65 <=? n) && (n <=? 90))%nat
  || ((97 <=? n) && (n <=? 122))%nat || (n =? 95)%nat || (n =? 45)%nat.

Fixpoint all_tag_chars (s : string) : bool :=
  match s with
  | EmptyString => true
  | String c rest => tag_char c && all_tag_chars rest
  end.

Definition plain_tag (s : string) : bool :=
  match s with
  | EmptyString => false
  | String _ _ => all_tag_chars s
  end.

(** The proper descendants of an element, in document order. *)
Fixpoint descendants (e : Element) : list Element :=
  match e with
  | mkElement _ _ _ cs =>
      (fix walk (l : list Element) : list Element :=
         match l with
         | [] => []
         | c :: l' => c :: descendants c ++ walk l'
         end) cs
  end.

Definition first_tagged (t : string) (l : list Element) : option Element :=
  List.find (fun e => String.eqb (tag e) t) l.

Definition str_drop3 (s : string) : string :=
  match s with
  | String _ (String _ (String _ rest)) => rest
  | _ => EmptyString
  end.

Definition ref_find (e : Element) (path : string) : Result (option Element) :=
  if plain_tag path then Ok (first_tagged path (children e))
  else if startswith path ".//" && plain_tag (str_drop3 path)
  then Ok (first_tagged (str_drop3 path) (descendants e))
  else Raise (NotImplementedError path).

Definition ref_format (template : string) (value : option string) : Result string :=
  if String.eqb template "{:}" then Ok (str value)
  else Raise (NotImplementedError template).

#[global] Instance library : Library :=
  {| Element_find := ref_find; str_format := ref_format |}.

(** The document of the specification's scenario:
    [<items><item a="1"><v>10</v></item><item a="2"><v>20</v></item></items>] *)
Definition leaf (t : string) (txt : string) : Element :=
  mkElement t ∅ (Some txt) [].

Definition scenario_root : Element :=
  mkElement "items" ∅ None
    [ mkElement "item" {[ "a" := "1" ]} None [leaf "v" "10"];
      mkElement "item" {[ "a" := "2" ]} None [leaf "v" "20"] ].

Definition scenario_doc : ElementTree := mkElementTree scenario_root.

(** [<rows><row><ID>x</ID></row></rows>]: a child element is called
    like the default index field. *)
Definition shadow_root : Element :=
  mkElement "rows" ∅ None [mkElement "row" ∅ None [leaf "ID" "x"]].

Definition shadow_doc : ElementTree := mkElementTree shadow_root.

(** [<items><item a="1"><v/></item></items>]: the child [v] has no
    text. *)
Definition blank_item : Element :=
  mkElement "item" {[ "a" := "1" ]} None [mkElement "v" ∅ None []].

Definition blank_doc : ElementTree :=
  mkElementTree (mkElement "items" ∅ None [blank_item]).

(** [<items/>]: a root without children. *)
Definition empty_doc : ElementTree := mkElementTree (mkElement "items" ∅ None []).

(** Extractors and transformers as the constructors build them. *)
Definition attrib_a : FieldExtractor.t := FieldExtractor.__init__ "attrib" "a" None.
Definition attrib_missing : FieldExtractor.t := FieldExtractor.__init__ "attrib" "missing" None.
Definition text_v : FieldExtractor.t := FieldExtractor.__init__ "text" "v" None.
Definition text_missing : FieldExtractor.t := FieldExtractor.__init__ "text" "missing" None.
Definition text_ID : FieldExtractor.t := FieldExtractor.__init__ "text" "ID" None.

(** [XMLDocTransformer('ID', ['attrib:a', 'text:v'])] *)
Definition scenario_transformer : XMLDocTransformer.t :=
  XMLDocTransformer.mk "ID" [attrib_a; text_v] None.

(** [XMLDocTransformer('ID', ['attrib:a', 'text:missing'])] *)
Definition failing_transformer : XMLDocTransformer.t :=
  XMLDocTransformer.mk "ID" [attrib_a; text_missing] None.

(** [XMLDocTransformer('ID', ['text:ID'])] *)
Definition shadow_transformer : XMLDocTransformer.t :=
  XMLDocTransformer.mk "ID" [text_ID] None.

(** [XMLDocTransformer('ID', [])] *)
Definition bare_transformer : XMLDocTransformer.t :=
  XMLDocTransformer.mk "ID" [] None.

(** [XMLDocTransformer('ID', ['attrib:a', 'attrib:missing'])] *)
Definition attrib_transformer : XMLDocTransformer.t :=
  XMLDocTransformer.mk "ID" [attrib_a; attrib_missing] None.

(** [XMLDocTransformer('ID', ['attrib:v', 'text:v'])]: two fields of
    one name. *)
Definition twice_transformer : XMLDocTransformer.t :=
  XMLDocTransformer.mk "ID" [FieldExtractor.__init__ "attrib" "v" None; text_v] None.

(** [XMLDocTransformer('ID', ['attrib:a'], 'items')] *)
Definition rooted_transformer : XMLDocTransformer.t :=
  XMLDocTransformer.mk "ID" [attrib_a] (Some ".//items").

End Reference.

(** * Properties *)

(** ** The error monad *)

Lemma bind_Ok_inv {A B} (m : Result A) (k : A -> Result B) (b : B) :
  m ≫= k = Ok b -> exists a, m = Ok a /\ k a = Ok b.
Proof. destruct m as [a|e]; simpl; [eauto | discriminate]. Qed.

Lemma bind_Raise_l {A B} (m : Result A) (k : A -> Result B) :
  is_Raise m -> is_Raise (m ≫= k).
Proof. intros [e ->]. by exists e. Qed.

Lemma is_Ok_not_Raise {A} (m : Result A) : is_Ok m -> is_Raise m -> False.
Proof. intros [a ->] [e He]. discriminate. Qed.

Lemma Result_cases {A} (m : Result A) : is_Ok m \/ is_Raise m.
Proof. destruct m as [a|e]; [left; by exists a | right; by exists e]. Qed.

(** ** Builtins *)

Lemma split_not_nil (sep : ascii) (s : string) : split sep s <> [].
Proof.
  destruct s as [|c s]; simpl; [done|].
  destruct (Ascii.eqb c sep); [done|].
  by destruct (split sep s).
Qed.

Lemma enumerate_from_length {A} (l : list A) (start : Z) :
  length (enumerate_from start l) = length l.
Proof. revert start. induction l as [|x l IH]; intros start; simpl; [done|]. by rewrite IH. Qed.

Lemma enumerate_from_lookup {A} (l : list A) (start : Z) (i : nat) :
  enumerate_from start l !! i = (fun x => (start + Z.of_nat i, x)) <$> l !! i.
Proof.
  revert start i. induction l as [|x l IH]; intros start [|i]; simpl; try done.
  - by rewrite Z.add_0_r.
  - rewrite IH. destruct (l !! i); simpl; [|done]. do 2 f_equal. lia.
Qed.

(** ** The record of one child *)

Section Records.
Context `{Library}.
Import XMLDocTransformer.

Implicit Types (fields : list FieldExtractor.t) (item : Element)
  (d r : gmap string value) (self : t).

Lemma dict_comprehension_Raise fields item d :
  Exists (fun field => is_Raise (FieldExtractor.extract field item)) fields ->
  is_Raise (dict_comprehension fields item d).
Proof.
  intros Hex. revert d.
  induction fields as [|field rest IH]; intros d; [by inversion Hex|].
  simpl. destruct (FieldExtractor.extract field item) as [v|e] eqn:Hv.
  - simpl. apply IH. inversion Hex as [? ? Hbad|]; subst; [|done].
    destruct Hbad as [e He]. congruence.
  - by exists e.
Qed.

Lemma dict_comprehension_Ok fields item d :
  Forall (fun field => is_Ok (FieldExtractor.extract field item)) fields ->
  is_Ok (dict_comprehension fields item d).
Proof.
  intros Hall. revert d.
  induction Hall as [|field rest [v Hv] _ IH]; intros d; simpl.
  - by exists d.
  - rewrite Hv. simpl. apply IH.
Qed.

(** A key that names no field keeps the value it had. *)
Lemma dict_comprehension_lookup_other fields item d d' (k : string) :
  dict_comprehension fields item d = Ok d' ->
  k ∉ (FieldExtractor.name <$> fields) ->
  d' !! k = d !! k.
Proof.
  revert d. induction fields as [|field rest IH]; intros d Hrun Hk; simpl in *.
  - by injection Hrun as <-.
  - apply bind_Ok_inv in Hrun as (v & _ & Hrun).
    apply not_elem_of_cons in Hk as [Hne Hk].
    rewrite (IH _ Hrun Hk). by rewrite lookup_insert_ne.
Qed.

(** A key that names a field holds the string some field of that name
    extracted. *)
Lemma dict_comprehension_lookup_field fields item d d' (k : string) :
  dict_comprehension fields item d = Ok d' ->
  k ∈ (FieldExtractor.name <$> fields) ->
  exists field v,
    field ∈ fields /\ FieldExtractor.name field = k /\
    FieldExtractor.extract field item = Ok v /\ d' !! k = Some (VStr v).
Proof.
  revert d. induction fields as [|field rest IH]; intros d Hrun Hk; simpl in *.
  - by apply elem_of_nil in Hk.
  - apply bind_Ok_inv in Hrun as (v & Hv & Hrun).
    destruct (decide (k ∈ (FieldExtractor.name <$> rest))) as [Hin|Hout].
    + destruct (IH _ Hrun Hin) as (f & w & Hf & Hn & Hw & Hl).
      exists f, w. split; [apply elem_of_cons; by right | done].
    + apply elem_of_cons in Hk as [->|Hk]; [|done].
      exists field, v. split; [apply elem_of_cons; by left|].
      split; [done|]. split; [done|].
      rewrite (dict_comprehension_lookup_other _ _ _ _ _ Hrun Hout).
      by rewrite lookup_insert_eq.
Qed.

Lemma transform_item_Raise self index item :
  Exists (fun field => is_Raise (FieldExtractor.extract field item)) (_fields self) ->
  is_Raise (transform_item self index item).
Proof.
  intros Hex. unfold transform_item.
  apply bind_Raise_l. by apply dict_comprehension_Raise.
Qed.

Lemma transform_item_Ok self index item :
  Forall (fun field => is_Ok (FieldExtractor.extract field item)) (_fields self) ->
  is_Ok (transform_item self index item).
Proof.
  intros Hall. unfold transform_item.
  destruct (dict_comprehension_Ok _ item ∅ Hall) as [d ->]. simpl. by eexists.
Qed.

Lemma transform_item_index self index item r :
  transform_item self index item = Ok r ->
  _index_field self ∉ (FieldExtractor.name <$> _fields self) ->
  r !! _index_field self = Some (VInt index).
Proof.
  unfold transform_item. intros Hrun Hfresh.
  apply bind_Ok_inv in Hrun as (other & Hother & [= <-]).
  unfold update. rewrite lookup_union_r.
  - by rewrite lookup_singleton_eq.
  - rewrite (dict_comprehension_lookup_other _ _ _ _ _ Hother Hfresh).
    apply lookup_empty.
Qed.

Lemma transform_item_shadowed self index item r :
  transform_item self index item = Ok r ->
  _index_field self ∈ (FieldExtractor.name <$> _fields self) ->
  exists field v,
    field ∈ _fields self /\ FieldExtractor.name field = _index_field self /\
    FieldExtractor.extract field item = Ok v /\
    r !! _index_field self = Some (VStr v).
Proof.
  unfold transform_item. intros Hrun Hin.
  apply bind_Ok_inv in Hrun as (other & Hother & [= <-]).
  destruct (dict_comprehension_lookup_field _ _ _ _ _ Hother Hin)
    as (field & v & Hf & Hn & Hv & Hl).
  exists field, v. repeat split; try done.
  unfold update. by rewrite (lookup_union_Some_l _ _ _ _ Hl).
Qed.

(** ** The loop over the children *)

Lemma transform_loop_Ok_inv self pairs items res :
  transform_loop self pairs items = Ok res ->
  exists rs,
    res = items ++ rs /\
    Forall2 (fun p r => transform_item self p.1 p.2 = Ok r) pairs rs.
Proof.
  revert items. induction pairs as [|[index item] rest IH]; intros items Hrun; simpl in *.
  - injection Hrun as <-. exists []. by rewrite app_nil_r.
  - apply bind_Ok_inv in Hrun as (r & Hr & Hrun).
    destruct (IH _ Hrun) as (rs & -> & Hrs).
    exists (r :: rs). split; [by rewrite <- app_assoc | by constructor].
Qed.

Lemma transform_loop_Ok self pairs items :
  Forall (fun p => is_Ok (transform_item self p.1 p.2)) pairs ->
  is_Ok (transform_loop self pairs items).
Proof.
  intros Hall. revert items.
  induction Hall as [|[index item] rest [r Hr] _ IH]; intros items; simpl in *.
  - by exists items.
  - rewrite Hr. simpl. apply IH.
Qed.

Lemma transform_loop_Raise self pairs items :
  Exists (fun p => is_Raise (transform_item self p.1 p.2)) pairs ->
  is_Raise (transform_loop self pairs items).
Proof.
  intros Hex. revert items.
  induction pairs as [|[index item] rest IH]; intros items; [by inversion Hex|].
  simpl. destruct (transform_item self index item) as [r|e] eqn:Hr.
  - simpl. apply IH. inversion Hex as [? ? Hbad|]; subst; [|done].
    destruct Hbad as [e He]. simpl in He. congruence.
  - by exists e.
Qed.

End Records.

(** ** Field specifications *)

Lemma from_spec_one_part (field_spec part : string) :
  split ":" field_spec = [part] -> FieldExtractor.from_spec field_spec = Raise IndexError.
Proof. intros Hparts. unfold FieldExtractor.from_spec. by rewrite Hparts. Qed.

Lemma from_spec_Ok_name (field_spec : string) (field : FieldExtractor.t) :
  FieldExtractor.from_spec field_spec = Ok field ->
  exists source rest, split ":" field_spec = source :: FieldExtractor.name field :: rest.
Proof.
  unfold FieldExtractor.from_spec.
  destruct (split ":" field_spec) as [|source [|name rest]]; simpl; try discriminate.
  intros Hrun. exists source, rest.
  destruct rest as [|fmt rest']; simpl in Hrun;
    destruct (negb _); try discriminate; by injection Hrun as <-.
Qed.

Lemma parse_field_specs_Ok (field_specs : list string) :
  Forall (fun field_spec => is_Ok (FieldExtractor.from_spec field_spec)) field_specs ->
  exists fields,
    XMLDocTransformer.parse_field_specs field_specs = Ok fields /\
    Forall2 (fun field_spec field => FieldExtractor.from_spec field_spec = Ok field)
      field_specs fields.
Proof.
  induction 1 as [|field_spec rest [field Hfield] _ (fields & Hrest & Hall)]; simpl.
  - exists []. by split.
  - exists (field :: fields). rewrite Hfield, Hrest. split; [done | by constructor].
Qed.

(** C4.  A field specification without a name -- one that [split(':')]
    cuts into fewer than two parts, such as ["attrib"] -- makes
    [FieldExtractor.from_spec] fail: the second [pop(0)] finds the list
    empty and raises [IndexError], the configuration error for a missing
    name.  The failure comes before the source is looked at. *)
Theorem from_spec_missing_name (field_spec : string) :
  (length (split ":" field_spec) < 2)%nat ->
  FieldExtractor.from_spec field_spec = Raise IndexError.
Proof.
  intros Hlen.
  destruct (split ":" field_spec) as [|part [|part' rest]] eqn:Hparts.
  - by apply split_not_nil in Hparts.
  - by apply from_spec_one_part with part.
  - simpl in Hlen. lia.
Qed.

Lemma from_spec_missing_name_witness :
  FieldExtractor.from_spec "attrib" = Raise IndexError.
Proof. apply from_spec_missing_name. vm_compute. apply le_n. Defined.

(** ** Extraction of one field *)

Section Extraction.
Context `{Library}.
Import FieldExtractor.

(** C2.  An extractor whose source is [text], applied to a node on
    which [find] of the extractor's name matches nothing, raises
    [KeyError] carrying the field name (the field-not-found error) and
    returns no value, whatever its format. *)
Theorem extract_text_not_found (self : FieldExtractor.t) (element : Element) :
  _source self = "text" ->
  Element_find element (_name self) = Ok None ->
  extract self element = Raise (KeyError (_name self)).
Proof. intros Hsource Hfind. unfold extract. by rewrite Hsource, Hfind. Qed.

(** C3.  An extractor whose source is [attrib] and that has no format
    (its formatter is [str]), applied to a node without that attribute,
    raises nothing and returns the string ["None"]. *)
Theorem extract_attrib_missing (self : FieldExtractor.t) (element : Element) :
  _source self = "attrib" ->
  _formatter self = builtin_str ->
  get element (_name self) = None ->
  extract self element = Ok "None".
Proof.
  intros Hsource Hformatter Hget. unfold extract.
  by rewrite Hsource, Hformatter, Hget.
Qed.

End Extraction.

Lemma extract_text_not_found_witness :
  FieldExtractor.extract Reference.text_missing Reference.scenario_root
  = Raise (KeyError "missing").
Proof.
  apply (extract_text_not_found Reference.text_missing Reference.scenario_root);
    reflexivity.
Defined.

Lemma extract_attrib_missing_witness :
  FieldExtractor.extract Reference.attrib_missing Reference.scenario_root = Ok "None".
Proof.
  apply (extract_attrib_missing Reference.attrib_missing Reference.scenario_root);
    reflexivity.
Defined.

(** ** Construction of a transformer *)

Section Construction.
Import XMLDocTransformer.

Lemma startswith_spec (s p : string) :
  startswith s p = true <-> exists rest, s = p +:+ rest.
Proof.
  unfold startswith. revert s.
  induction p as [|c p IH]; intros [|d s]; simpl.
  - split; [intros _; by exists EmptyString | done].
  - split; [intros _; by exists (String d s) | done].
  - split; [done | by intros [rest ?]].
  - assert (Hcons : forall rest, String c p +:+ rest = String c (p +:+ rest))
      by reflexivity.
    destruct (ascii_dec c d) as [<-|Hne].
    + rewrite IH. split; intros [rest Hrest]; exists rest;
        rewrite Hcons in *; congruence.
    + split; [done|]. intros [rest Hrest]. rewrite Hcons in Hrest. congruence.
Qed.

(** C8.  A transformer that has been constructed stores its root path
    as follows: a non-empty path that does not start with [.//] is
    stored with [.//] in front of it; a path that starts with [.//], the
    empty path and the absent path are stored as given. *)
Theorem init_root_path (index_field : string) (field_specs : list string)
    (root_path : option string) (self : XMLDocTransformer.t) :
  __init__ index_field field_specs root_path = Ok self ->
  (forall p, root_path = Some p -> p <> EmptyString -> startswith p ".//" = false ->
     _root_path self = Some (".//" +:+ p)) /\
  (forall p, root_path = Some p -> startswith p ".//" = true ->
     _root_path self = Some p) /\
  (root_path = Some EmptyString -> _root_path self = Some EmptyString) /\
  (root_path = None -> _root_path self = None).
Proof.
  unfold __init__. intros Hinit.
  apply bind_Ok_inv in Hinit as (fields & _ & [= <-]). simpl.
  repeat split.
  - intros p -> Hp Hprefix. rewrite Hprefix.
    destruct p; [done | reflexivity].
  - intros p -> Hprefix. rewrite Hprefix. by rewrite andb_false_r.
  - by intros ->.
  - by intros ->.
Qed.

(** C7.  For every index-field name and every sequence of valid field
    specifications, the transformer is constructed and [field_names]
    returns the index-field name followed by one name per
    specification, in the order given, each name being the second
    [:]-separated part of its specification. *)
Theorem field_names_order (index_field : string) (field_specs : list string)
    (root_path : option string) :
  Forall (fun field_spec => is_Ok (FieldExtractor.from_spec field_spec)) field_specs ->
  exists self names,
    __init__ index_field field_specs root_path = Ok self /\
    field_names self = index_field :: names /\
    Forall2 (fun field_spec name =>
               exists source rest, split ":" field_spec = source :: name :: rest)
      field_specs names.
Proof.
  intros Hvalid.
  destruct (parse_field_specs_Ok _ Hvalid) as (fields & Hparse & Hall).
  unfold __init__. rewrite Hparse. simpl.
  eexists _, (FieldExtractor.name <$> fields). split; [reflexivity|].
  split; [reflexivity|].
  clear Hparse Hvalid. induction Hall as [|field_spec field rest fields' Hfield _ IH].
  - constructor.
  - constructor; [by apply from_spec_Ok_name | done].
Qed.

(** C9.  Reading the [index_field] property of any transformer raises
    [AttributeError]: it looks up [_index_field_name], which is not in
    the instance dictionary, so the index-field name cannot be read
    through it. *)
Theorem index_field_raises (self : XMLDocTransformer.t) :
  index_field self = Raise (AttributeError "_index_field_name").
Proof.
  unfold index_field, getattr, __dict__.
  by rewrite !lookup_insert_ne, lookup_empty.
Qed.

End Construction.

Lemma init_root_path_witness :
  XMLDocTransformer._root_path
    (XMLDocTransformer.mk "ID" [Reference.text_v] (Some ".//reg_areas"))
  = Some ".//reg_areas".
Proof.
  destruct (init_root_path "ID" ["text:v"] (Some "reg_areas") _ eq_refl)
    as [Hprepend _].
  apply (Hprepend "reg_areas"); [reflexivity | discriminate | reflexivity].
Defined.

Lemma field_names_order_witness :
  exists self names,
    XMLDocTransformer.__init__ "ID" ["attrib:a"; "text:v:.5s"] None = Ok self /\
    XMLDocTransformer.field_names self = "ID" :: names /\
    Forall2 (fun field_spec name =>
               exists source rest, split ":" field_spec = source :: name :: rest)
      ["attrib:a"; "text:v:.5s"] names.
Proof.
  apply (field_names_order "ID" ["attrib:a"; "text:v:.5s"] None).
  repeat constructor; eexists; reflexivity.
Defined.

(** ** The transform *)

Section Transform.
Context `{Library}.
Import XMLDocTransformer.

Lemma transform_resolved (self : XMLDocTransformer.t) (xmldoc : ElementTree)
    (root : Element) :
  resolve_root self xmldoc = Ok (Some root) ->
  transform self xmldoc = transform_loop self (enumerate (children root)) [].
Proof. intros Hroot. unfold transform. by rewrite Hroot. Qed.

(** C5.  When the stored root path is present and [find] from the
    top-level node matches nothing, [transform] raises [TypeError] -- the
    [for] statement cannot iterate over [None]; this is the
    root-not-found error.  No child is visited and no record is
    produced, whatever the fields are. *)
Theorem transform_root_not_found (self : XMLDocTransformer.t)
    (xmldoc : ElementTree) (root_path : string) :
  _root_path self = Some root_path ->
  Element_find (getroot xmldoc) root_path = Ok None ->
  transform self xmldoc = Raise TypeError.
Proof.
  intros Hpath Hfind. unfold transform, resolve_root.
  by rewrite Hpath, Hfind.
Qed.

(** C6.  If the extraction of any field on any child of the resolved
    root fails, the whole call of [transform] fails: it raises and
    returns no list of records, neither the records of the children
    before the failure nor a list without the failing child. *)
Theorem transform_aborts (self : XMLDocTransformer.t) (xmldoc : ElementTree)
    (root child : Element) (field : FieldExtractor.t) :
  resolve_root self xmldoc = Ok (Some root) ->
  child ∈ children root ->
  field ∈ _fields self ->
  is_Raise (FieldExtractor.extract field child) ->
  exists e, transform self xmldoc = Raise e.
Proof.
  intros Hroot Hchild Hfield Hfail.
  rewrite (transform_resolved _ _ _ Hroot).
  apply transform_loop_Raise.
  apply list_elem_of_lookup in Hchild as [i Hi].
  apply Exists_exists. exists (0 + Z.of_nat i, child). split.
  - apply list_elem_of_lookup. exists i.
    unfold enumerate. by rewrite enumerate_from_lookup, Hi.
  - simpl. apply transform_item_Raise.
    apply Exists_exists. by exists field.
Qed.

(** C1, amended.  Let the resolved root have N direct children.  If no
    field is named like the index field and every field can be
    extracted from every child, then [transform] returns exactly N
    records, the i-th record (0-based) being the one built from the
    i-th child, and it maps the index-field name to the integer i.
    Every direct child counts, whatever its tag. *)
Theorem transform_indices (self : XMLDocTransformer.t) (xmldoc : ElementTree)
    (root : Element) :
  resolve_root self xmldoc = Ok (Some root) ->
  _index_field self ∉ (FieldExtractor.name <$> _fields self) ->
  Forall (fun child =>
            Forall (fun field => is_Ok (FieldExtractor.extract field child))
              (_fields self))
    (children root) ->
  exists items,
    transform self xmldoc = Ok items /\
    length items = length (children root) /\
    forall (i : nat) (child : Element),
      children root !! i = Some child ->
      exists r,
        items !! i = Some r /\
        transform_item self (Z.of_nat i) child = Ok r /\
        r !! _index_field self = Some (VInt (Z.of_nat i)).
Proof.
  intros Hroot Hfresh Hall.
  rewrite (transform_resolved _ _ _ Hroot).
  assert (Hok : is_Ok (transform_loop self (enumerate (children root)) [])).
  { apply transform_loop_Ok. apply Forall_forall. intros [index item] Hin.
    apply list_elem_of_lookup in Hin as [i Hi].
    unfold enumerate in Hi. rewrite enumerate_from_lookup in Hi.
    destruct (children root !! i) as [child|] eqn:Hchild; [|done].
    injection Hi as <- <-. simpl. apply transform_item_Ok.
    eapply Forall_forall in Hall; [exact Hall|].
    apply list_elem_of_lookup. by exists i. }
  destruct Hok as [items Hitems]. exists items. split; [done|].
  apply transform_loop_Ok_inv in Hitems as (rs & -> & Hrs). simpl.
  split.
  - rewrite <- (Forall2_length _ _ _ Hrs).
    unfold enumerate. apply enumerate_from_length.
  - intros i child Hchild.
    assert (Hpair : enumerate (children root) !! i = Some (Z.of_nat i, child)).
    { unfold enumerate. by rewrite enumerate_from_lookup, Hchild. }
    destruct (Forall2_lookup_l _ _ _ _ _ Hrs Hpair) as (r & Hr & Hitem).
    simpl in Hitem. exists r. split; [done|]. split; [done|].
    by apply transform_item_index with child.
Qed.

(** C10.  When some field of the transformer is named like the index
    field, every record that [transform] returns maps that name to the
    string a field of that name extracted from the record's child, and
    not to the child's zero-based index. *)
Theorem transform_index_shadowed (self : XMLDocTransformer.t)
    (xmldoc : ElementTree) (items : list (gmap string value)) :
  _index_field self ∈ (FieldExtractor.name <$> _fields self) ->
  transform self xmldoc = Ok items ->
  forall (i : nat) (r : gmap string value),
    items !! i = Some r ->
    exists root child field v,
      resolve_root self xmldoc = Ok (Some root) /\
      children root !! i = Some child /\
      field ∈ _fields self /\
      FieldExtractor.name field = _index_field self /\
      FieldExtractor.extract field child = Ok v /\
      r !! _index_field self = Some (VStr v) /\
      r !! _index_field self <> Some (VInt (Z.of_nat i)).
Proof.
  intros Hshadow Hrun i r Hr.
  unfold transform in Hrun.
  apply bind_Ok_inv in Hrun as (root' & Hroot & Hrun).
  destruct root' as [root|]; [|discriminate]. simpl in Hrun.
  apply transform_loop_Ok_inv in Hrun as (rs & -> & Hrs). simpl in Hr.
  destruct (Forall2_lookup_r _ _ _ _ _ Hrs Hr) as ([index child] & Hpair & Hitem).
  unfold enumerate in Hpair. rewrite enumerate_from_lookup in Hpair.
  destruct (children root !! i) as [child'|] eqn:Hchild; [|done].
  injection Hpair as <- <-. simpl in Hitem.
  destruct (transform_item_shadowed _ _ _ _ Hitem Hshadow)
    as (field & v & Hfield & Hname & Hv & Hlookup).
  exists root, child', field, v. repeat split; try done.
  rewrite Hlookup. discriminate.
Qed.

End Transform.

(** ** Runs on the reference instance *)

Section Runs.
Import XMLDocTransformer Reference.

(** The scenario of the specification: rows [0,1,10] and [1,2,20]. *)
Example scenario_rows :
  transform scenario_transformer scenario_doc
  = Ok [ {[ "ID" := VInt 0; "a" := VStr "1"; "v" := VStr "10" ]};
         {[ "ID" := VInt 1; "a" := VStr "2"; "v" := VStr "20" ]} ].
Proof. vm_compute. reflexivity. Qed.

Example scenario_header :
  field_names scenario_transformer = ["ID"; "a"; "v"].
Proof. reflexivity. Qed.

Example scenario_constructed :
  __init__ "ID" ["attrib:a"; "text:v"] None = Ok scenario_transformer.
Proof. reflexivity. Qed.

Example rooted_constructed :
  __init__ "ID" ["attrib:a"] (Some "items") = Ok rooted_transformer.
Proof. reflexivity. Qed.

End Runs.

Lemma transform_root_not_found_witness :
  XMLDocTransformer.transform Reference.rooted_transformer Reference.scenario_doc
  = Raise TypeError.
Proof.
  apply (transform_root_not_found Reference.rooted_transformer
           Reference.scenario_doc ".//items"); reflexivity.
Defined.

Lemma transform_aborts_witness :
  exists e,
    XMLDocTransformer.transform Reference.failing_transformer Reference.scenario_doc
    = Raise e.
Proof.
  apply (transform_aborts Reference.failing_transformer Reference.scenario_doc
           Reference.scenario_root
           (mkElement "item" {[ "a" := "2" ]} None [Reference.leaf "v" "20"])
           Reference.text_missing).
  - reflexivity.
  - apply elem_of_cons. right. apply elem_of_cons. by left.
  - apply elem_of_cons. right. apply elem_of_cons. by left.
  - exists (KeyError "missing"). reflexivity.
Defined.

Lemma transform_indices_witness :
  exists items,
    XMLDocTransformer.transform Reference.scenario_transformer Reference.scenario_doc
    = Ok items /\
    length items = 2%nat /\
    forall (i : nat) (child : Element),
      children Reference.scenario_root !! i = Some child ->
      exists r,
        items !! i = Some r /\
        XMLDocTransformer.transform_item Reference.scenario_transformer
          (Z.of_nat i) child = Ok r /\
        r !! "ID" = Some (VInt (Z.of_nat i)).
Proof.
  apply (transform_indices Reference.scenario_transformer Reference.scenario_doc
           Reference.scenario_root).
  - reflexivity.
  - apply (bool_decide_unpack _). vm_compute. exact I.
  - repeat constructor; eexists; vm_compute; reflexivity.
Defined.

(** C1 as stated fails in two ways.  With the field [text:ID] and the
    index field [ID], the root has one child and the only record maps
    [ID] to the string ["x"], not to 0.  With the field [text:missing],
    the root has two children and no record is returned at all. *)
Lemma transform_indices_counterexample :
  (XMLDocTransformer.resolve_root Reference.shadow_transformer Reference.shadow_doc
   = Ok (Some Reference.shadow_root) /\
   length (children Reference.shadow_root) = 1%nat /\
   exists r,
     XMLDocTransformer.transform Reference.shadow_transformer Reference.shadow_doc
     = Ok [r] /\
     r !! "ID" = Some (VStr "x") /\
     r !! "ID" <> Some (VInt 0)) /\
  (XMLDocTransformer.resolve_root Reference.failing_transformer Reference.scenario_doc
   = Ok (Some Reference.scenario_root) /\
   length (children Reference.scenario_root) = 2%nat /\
   XMLDocTransformer.transform Reference.failing_transformer Reference.scenario_doc
   = Raise (KeyError "missing")).
Proof.
  split; [|by vm_compute].
  split; [reflexivity|]. split; [reflexivity|].
  eexists. split; [vm_compute; reflexivity|].
  split; [by vm_compute | vm_compute; discriminate].
Qed.

Lemma transform_index_shadowed_witness :
  exists root child field v,
    XMLDocTransformer.resolve_root Reference.shadow_transformer Reference.shadow_doc
    = Ok (Some root) /\
    children root !! 0%nat = Some child /\
    field ∈ XMLDocTransformer._fields Reference.shadow_transformer /\
    FieldExtractor.name field = "ID" /\
    FieldExtractor.extract field child = Ok v /\
    ({[ "ID" := VStr "x" ]} : gmap string value) !! "ID" = Some (VStr v) /\
    ({[ "ID" := VStr "x" ]} : gmap string value) !! "ID" <> Some (VInt (Z.of_nat 0)).
Proof.
  apply (transform_index_shadowed Reference.shadow_transformer Reference.shadow_doc
           [ {[ "ID" := VStr "x" ]} ]).
  - apply elem_of_cons. by left.
  - vm_compute. reflexivity.
  - reflexivity.
Defined.

(** * Further properties of the code *)

(** ** Splitting a field specification *)

Lemma split_without_sep (sep : ascii) (s : string) :
  occurs sep s = false -> split sep s = [s].
Proof.
  induction s as [|c s IH]; simpl; [done|].
  destruct (Ascii.eqb c sep); simpl; [done|].
  intros Hs. by rewrite (IH Hs).
Qed.

Lemma split_with_sep (sep : ascii) (s : string) :
  occurs sep s = true -> exists a b rest, split sep s = a :: b :: rest.
Proof.
  induction s as [|c s IH]; simpl; [done|].
  destruct (Ascii.eqb c sep); simpl.
  - intros _. destruct (split sep s) as [|b rest] eqn:Hs.
    + by apply split_not_nil in Hs.
    + by exists EmptyString, b, rest.
  - intros Hs. destruct (IH Hs) as (a & b & rest & ->). by exists (String c a), b, rest.
Qed.

Lemma split_parts_without_sep (sep : ascii) (s : string) :
  Forall (fun part => occurs sep part = false) (split sep s).
Proof.
  induction s as [|c s IH]; simpl; [by repeat constructor|].
  destruct (Ascii.eqb c sep) eqn:Hc; [by constructor|].
  destruct (split sep s) as [|part parts]; [by repeat constructor; simpl; rewrite Hc|].
  inversion IH as [|? ? Hpart Hparts]; subst.
  constructor; [|done]. simpl. by rewrite Hc.
Qed.

Lemma from_spec_two_parts (field_spec source name : string) (rest : list string) :
  split ":" field_spec = source :: name :: rest ->
  FieldExtractor.from_spec field_spec
  = if negb (String.eqb source "attrib" || String.eqb source "text")
    then Raise (ValueError ("Invalid value source: " +:+ source))
    else Ok (FieldExtractor.__init__ source name (head rest)).
Proof.
  intros Hparts. unfold FieldExtractor.from_spec. rewrite Hparts.
  by destruct rest.
Qed.

(** X1.  A field specification with a name whose source is neither
    [attrib] nor [text] makes [from_spec] raise [ValueError] with the
    message [Invalid value source: ] followed by that source. *)
Theorem from_spec_invalid_source (field_spec source name : string)
    (rest : list string) :
  split ":" field_spec = source :: name :: rest ->
  source <> "attrib" -> source <> "text" ->
  FieldExtractor.from_spec field_spec
  = Raise (ValueError ("Invalid value source: " +:+ source)).
Proof.
  intros Hparts Ha Ht. rewrite (from_spec_two_parts _ _ _ _ Hparts).
  apply String.eqb_neq in Ha, Ht. by rewrite Ha, Ht.
Qed.

Lemma from_spec_invalid_source_witness :
  FieldExtractor.from_spec "bogus:x" = Raise (ValueError "Invalid value source: bogus").
Proof.
  apply (from_spec_invalid_source "bogus:x" "bogus" "x" []);
    [reflexivity | discriminate | discriminate].
Defined.

(** X2.  [from_spec] returns an extractor exactly when the
    specification has at least two [:]-separated parts and the first is
    [attrib] or [text]; the extractor is then the one [__init__] builds
    from the first part, the second part and the third part if there is
    one.  Parts after the third are ignored, and an empty third part is a
    format, not the absence of one. *)
Theorem from_spec_Ok_iff (field_spec : string) (field : FieldExtractor.t) :
  FieldExtractor.from_spec field_spec = Ok field <->
  exists source name rest,
    split ":" field_spec = source :: name :: rest /\
    (source = "attrib" \/ source = "text") /\
    field = FieldExtractor.__init__ source name (head rest).
Proof.
  split.
  - destruct (split ":" field_spec) as [|source [|name rest]] eqn:Hparts.
    + by apply split_not_nil in Hparts.
    + by rewrite (from_spec_one_part _ _ Hparts).
    + rewrite (from_spec_two_parts _ _ _ _ Hparts).
      destruct (String.eqb source "attrib") eqn:Ha; simpl.
      * intros [= <-]. apply String.eqb_eq in Ha. exists source, name, rest. auto.
      * destruct (String.eqb source "text") eqn:Ht; simpl; [|done].
        intros [= <-]. apply String.eqb_eq in Ht. exists source, name, rest. auto.
  - intros (source & name & rest & Hparts & Hsource & ->).
    rewrite (from_spec_two_parts _ _ _ _ Hparts).
    by destruct Hsource as [-> | ->].
Qed.

(** X3.  [from_spec] raises [IndexError] exactly for the specifications
    that contain no [:] at all. *)
Theorem from_spec_IndexError_iff (field_spec : string) :
  FieldExtractor.from_spec field_spec = Raise IndexError <->
  occurs ":" field_spec = false.
Proof.
  split.
  - intros Hrun. destruct (occurs ":" field_spec) eqn:Hocc; [|done].
    destruct (split_with_sep _ _ Hocc) as (source & name & rest & Hparts).
    rewrite (from_spec_two_parts _ _ _ _ Hparts) in Hrun.
    by destruct (negb _).
  - intros Hocc. apply from_spec_one_part with field_spec.
    by apply split_without_sep.
Qed.

(** X4.  The name of an extractor that [from_spec] returns contains no
    [:]. *)
Theorem from_spec_name_without_colon (field_spec : string)
    (field : FieldExtractor.t) :
  FieldExtractor.from_spec field_spec = Ok field ->
  occurs ":" (FieldExtractor.name field) = false.
Proof.
  intros Hrun. destruct (from_spec_Ok_name _ _ Hrun) as (source & rest & Hparts).
  pose proof (split_parts_without_sep ":" field_spec) as Hall.
  rewrite Hparts in Hall.
  inversion Hall as [|? ? _ Hall']; subst. by inversion Hall'.
Qed.

Lemma from_spec_name_without_colon_witness :
  occurs ":" (FieldExtractor.name (FieldExtractor.__init__ "text" "v" (Some ".5s")))
  = false.
Proof. apply (from_spec_name_without_colon "text:v:.5s:more"). reflexivity. Defined.

(** ** Extraction, further cases *)

Section ExtractionCases.
Context `{Library}.
Import FieldExtractor.

(** X5.  A [text] extractor without format, on a node where [find]
    returns a child, returns the text of that child; a child without
    text gives the string ["None"] and no error. *)
Theorem extract_text_found (self : FieldExtractor.t) (element child : Element) :
  _source self = "text" ->
  _formatter self = builtin_str ->
  Element_find element (_name self) = Ok (Some child) ->
  extract self element
  = Ok (match text child with Some s => s | None => "None" end).
Proof.
  intros Hsource Hformatter Hfind. unfold extract.
  by rewrite Hsource, Hformatter, Hfind.
Qed.

Lemma extract_attrib_plain (self : FieldExtractor.t) (element : Element) :
  _source self = "attrib" ->
  _formatter self = builtin_str ->
  extract self element = Ok (str (get element (_name self))).
Proof. intros Hsource Hformatter. unfold extract. by rewrite Hsource, Hformatter. Qed.

End ExtractionCases.

Lemma extract_text_found_witness :
  FieldExtractor.extract Reference.text_v Reference.blank_item = Ok "None".
Proof.
  apply (extract_text_found Reference.text_v Reference.blank_item
           (mkElement "v" ∅ None [])); reflexivity.
Defined.

(** ** Construction, further cases *)

Section ConstructionCases.
Import XMLDocTransformer.

#[local] Arguments startswith : simpl never.

Lemma parse_field_specs_Ok_inv (field_specs : list string)
    (fields : list FieldExtractor.t) :
  parse_field_specs field_specs = Ok fields ->
  Forall (fun field_spec => is_Ok (FieldExtractor.from_spec field_spec)) field_specs.
Proof.
  revert fields. induction field_specs as [|field_spec rest IH]; intros fields; simpl.
  - constructor.
  - intros Hrun. apply bind_Ok_inv in Hrun as (field & Hfield & Hrun).
    apply bind_Ok_inv in Hrun as (fields' & Hrest & _).
    constructor; [by exists field | by apply IH with fields'].
Qed.

Lemma parse_field_specs_first_failure (valid : list string) (bad : string)
    (rest : list string) (e : exception) :
  Forall (fun field_spec => is_Ok (FieldExtractor.from_spec field_spec)) valid ->
  FieldExtractor.from_spec bad = Raise e ->
  parse_field_specs (valid ++ bad :: rest) = Raise e.
Proof.
  intros Hvalid Hbad.
  induction Hvalid as [|field_spec valid' [field Hfield] _ IH]; simpl.
  - by rewrite Hbad.
  - by rewrite Hfield, IH.
Qed.

(** X6.  Construction fails with the error of the first invalid field
    specification: when the specifications before it are valid, the
    error [from_spec] raises on it is the error of [__init__], whatever
    comes after it and whatever the root path. *)
Theorem init_first_invalid_spec (index_field : string) (valid : list string)
    (bad : string) (rest : list string) (root_path : option string) (e : exception) :
  Forall (fun field_spec => is_Ok (FieldExtractor.from_spec field_spec)) valid ->
  FieldExtractor.from_spec bad = Raise e ->
  __init__ index_field (valid ++ bad :: rest) root_path = Raise e.
Proof.
  intros Hvalid Hbad. unfold __init__.
  by rewrite (parse_field_specs_first_failure _ _ _ _ Hvalid Hbad).
Qed.

(** X7.  Construction succeeds exactly when every field specification
    is valid; the index-field name and the root path play no part. *)
Theorem init_Ok_iff (index_field : string) (field_specs : list string)
    (root_path : option string) :
  is_Ok (__init__ index_field field_specs root_path) <->
  Forall (fun field_spec => is_Ok (FieldExtractor.from_spec field_spec)) field_specs.
Proof.
  split.
  - intros [self Hinit]. unfold __init__ in Hinit.
    apply bind_Ok_inv in Hinit as (fields & Hparse & _).
    by apply parse_field_specs_Ok_inv with fields.
  - intros Hvalid. destruct (parse_field_specs_Ok _ Hvalid) as (fields & Hparse & _).
    unfold __init__. rewrite Hparse. by eexists.
Qed.

(** X8.  The root path a constructed transformer stores is absent, empty,
    or starts with [.//]. *)
Theorem init_root_path_shape (index_field : string) (field_specs : list string)
    (root_path : option string) (self : XMLDocTransformer.t) :
  __init__ index_field field_specs root_path = Ok self ->
  _root_path self = None \/
  _root_path self = Some EmptyString \/
  exists rest, _root_path self = Some (".//" +:+ rest).
Proof.
  unfold __init__. intros Hinit.
  apply bind_Ok_inv in Hinit as (fields & _ & [= <-]). simpl.
  destruct root_path as [p|]; [|by left]. right.
  destruct p as [|c p]; [by left|]. right. simpl.
  destruct (startswith (String c p) ".//") eqn:Hprefix; simpl.
  - destruct (proj1 (startswith_spec _ _) Hprefix) as [rest Hrest].
    exists rest. by rewrite Hrest.
  - by exists (String c p).
Qed.

(** X9.  Normalising the root path is idempotent: constructing again
    with the root path a transformer stores gives the same transformer. *)
Theorem init_root_path_idempotent (index_field : string) (field_specs : list string)
    (root_path : option string) (self : XMLDocTransformer.t) :
  __init__ index_field field_specs root_path = Ok self ->
  __init__ index_field field_specs (_root_path self) = Ok self.
Proof.
  unfold __init__. intros Hinit.
  apply bind_Ok_inv in Hinit as (fields & Hparse & [= <-]).
  rewrite Hparse. simpl. do 2 f_equal.
  destruct root_path as [p|]; [|done].
  destruct p as [|c p]; [done|]. simpl.
  destruct (startswith (String c p) ".//") eqn:Hprefix; simpl.
  - by rewrite Hprefix.
  - reflexivity.
Qed.

End ConstructionCases.

Lemma init_first_invalid_spec_witness :
  XMLDocTransformer.__init__ "ID" (["attrib:a"] ++ "bogus:x" :: ["text"]) None
  = Raise (ValueError "Invalid value source: bogus").
Proof.
  apply (init_first_invalid_spec "ID" ["attrib:a"] "bogus:x" ["text"] None).
  - repeat constructor. eexists. reflexivity.
  - reflexivity.
Defined.

Lemma init_root_path_shape_witness :
  XMLDocTransformer._root_path Reference.rooted_transformer = None \/
  XMLDocTransformer._root_path Reference.rooted_transformer = Some EmptyString \/
  exists rest,
    XMLDocTransformer._root_path Reference.rooted_transformer = Some (".//" +:+ rest).
Proof.
  apply (init_root_path_shape "ID" ["attrib:a"] (Some "items")). reflexivity.
Defined.

Lemma init_root_path_idempotent_witness :
  XMLDocTransformer.__init__ "ID" ["attrib:a"]
    (XMLDocTransformer._root_path Reference.rooted_transformer)
  = Ok Reference.rooted_transformer.
Proof.
  apply (init_root_path_idempotent "ID" ["attrib:a"] (Some "items")). reflexivity.
Defined.

(** ** The transform, further cases *)

Section TransformCases.
Context `{Library}.
Import XMLDocTransformer.

Implicit Types (fields : list FieldExtractor.t) (item : Element)
  (d r : gmap string value) (self : XMLDocTransformer.t).

Lemma enumerate_from_app {A} (l1 l2 : list A) (start : Z) :
  enumerate_from start (l1 ++ l2)
  = enumerate_from start l1 ++ enumerate_from (start + Z.of_nat (length l1)) l2.
Proof.
  revert start. induction l1 as [|x l1 IH]; intros start; simpl.
  - by rewrite Z.add_0_r.
  - rewrite IH. do 3 f_equal. lia.
Qed.

Lemma dict_comprehension_app fields1 fields2 item d :
  dict_comprehension (fields1 ++ fields2) item d
  = dict_comprehension fields1 item d ≫= dict_comprehension fields2 item.
Proof.
  revert d. induction fields1 as [|field rest IH]; intros d; simpl; [done|].
  destruct (FieldExtractor.extract field item) as [v|e]; simpl; [apply IH | done].
Qed.

Lemma dict_comprehension_dom fields item d d' :
  dict_comprehension fields item d = Ok d' ->
  dom d' = list_to_set (FieldExtractor.name <$> fields) ∪ dom d.
Proof.
  revert d. induction fields as [|field rest IH]; intros d Hrun; simpl in *.
  - injection Hrun as <-. by rewrite (left_id_L ∅ (∪)).
  - apply bind_Ok_inv in Hrun as (v & _ & Hrun).
    rewrite (IH _ Hrun), dom_insert_L.
    rewrite !(assoc_L (∪)). f_equal. apply (comm_L (∪)).
Qed.

Lemma dict_comprehension_first_failure fields1 fields2 (field : FieldExtractor.t)
    item d (e : exception) :
  Forall (fun field => is_Ok (FieldExtractor.extract field item)) fields1 ->
  FieldExtractor.extract field item = Raise e ->
  dict_comprehension (fields1 ++ field :: fields2) item d = Raise e.
Proof.
  intros Hall Hfail. revert d.
  induction Hall as [|field' rest [v Hv] _ IH]; intros d; simpl.
  - by rewrite Hfail.
  - rewrite Hv. simpl. apply IH.
Qed.

Lemma dict_comprehension_last fields1 fields2 (field : FieldExtractor.t) item d d' :
  dict_comprehension (fields1 ++ field :: fields2) item d = Ok d' ->
  FieldExtractor.name field ∉ (FieldExtractor.name <$> fields2) ->
  exists v,
    FieldExtractor.extract field item = Ok v /\
    d' !! FieldExtractor.name field = Some (VStr v).
Proof.
  intros Hrun Hlast. rewrite dict_comprehension_app in Hrun.
  apply bind_Ok_inv in Hrun as (d1 & _ & Hrun). simpl in Hrun.
  apply bind_Ok_inv in Hrun as (v & Hv & Hrun).
  exists v. split; [done|].
  rewrite (dict_comprehension_lookup_other _ _ _ _ _ Hrun Hlast).
  by rewrite lookup_insert_eq.
Qed.

Lemma transform_item_dom self index item r :
  transform_item self index item = Ok r ->
  dom r = list_to_set (field_names self).
Proof.
  unfold transform_item. intros Hrun.
  apply bind_Ok_inv in Hrun as (other & Hother & [= <-]).
  unfold update, field_names.
  rewrite dom_union_L, (dict_comprehension_dom _ _ _ _ Hother), dom_singleton_L.
  rewrite dom_empty_L, (right_id_L ∅ (∪)). simpl. apply (comm_L (∪)).
Qed.

Lemma transform_loop_first_failure self (done_ rest : list (Z * Element))
    (p : Z * Element) (items : list (gmap string value)) (e : exception) :
  Forall (fun q => is_Ok (transform_item self q.1 q.2)) done_ ->
  transform_item self p.1 p.2 = Raise e ->
  transform_loop self (done_ ++ p :: rest) items = Raise e.
Proof.
  intros Hall Hfail. revert items.
  induction Hall as [|[index item] done' [r Hr] _ IH]; intros items; simpl in *.
  - destruct p as [index item]. simpl in Hfail. by rewrite Hfail.
  - rewrite Hr. simpl. apply IH.
Qed.

Lemma transform_Ok_inv self (xmldoc : ElementTree)
    (items : list (gmap string value)) :
  transform self xmldoc = Ok items ->
  exists root,
    resolve_root self xmldoc = Ok (Some root) /\
    Forall2 (fun p r => transform_item self p.1 p.2 = Ok r)
      (enumerate (children root)) items.
Proof.
  unfold transform. intros Hrun.
  apply bind_Ok_inv in Hrun as (root' & Hroot & Hrun).
  destruct root' as [root|]; [|discriminate]. simpl in Hrun.
  apply transform_loop_Ok_inv in Hrun as (rs & -> & Hrs).
  by exists root.
Qed.

(** X10.  Every record that [transform] returns has exactly the keys
    that [field_names] lists: the index field and the name of every
    field, nothing more and nothing less. *)
Theorem transform_record_keys self (xmldoc : ElementTree)
    (items : list (gmap string value)) (r : gmap string value) :
  transform self xmldoc = Ok items ->
  r ∈ items ->
  dom r = list_to_set (field_names self).
Proof.
  intros Hrun Hr.
  destruct (transform_Ok_inv _ _ _ Hrun) as (root & _ & Hrs).
  apply list_elem_of_lookup in Hr as [i Hi].
  destruct (Forall2_lookup_r _ _ _ _ _ Hrs Hi) as ([index item] & _ & Hitem).
  by apply transform_item_dom with index item.
Qed.

(** X11.  Whenever [transform] returns, the root was resolved to a node
    and the list has one record per direct child of that node -- also
    when a field is named like the index field. *)
Theorem transform_length self (xmldoc : ElementTree)
    (items : list (gmap string value)) :
  transform self xmldoc = Ok items ->
  exists root,
    resolve_root self xmldoc = Ok (Some root) /\
    length items = length (children root).
Proof.
  intros Hrun.
  destruct (transform_Ok_inv _ _ _ Hrun) as (root & Hroot & Hrs).
  exists root. split; [done|].
  rewrite <- (Forall2_length _ _ _ Hrs).
  unfold enumerate. apply enumerate_from_length.
Qed.

(** X12.  When the resolved root has no children, [transform] returns
    the empty list, whatever the fields are: no extraction is attempted,
    so fields that could not be extracted do not make it fail. *)
Theorem transform_no_children self (xmldoc : ElementTree) (root : Element) :
  resolve_root self xmldoc = Ok (Some root) ->
  children root = [] ->
  transform self xmldoc = Ok [].
Proof.
  intros Hroot Hnone. rewrite (transform_resolved _ _ _ Hroot).
  by rewrite Hnone.
Qed.

(** X13.  A transformer without fields never fails on a resolved root:
    it returns one record per child, and the i-th record holds the index
    field alone, mapped to i. *)
Theorem transform_no_fields self (xmldoc : ElementTree) (root : Element) :
  _fields self = [] ->
  resolve_root self xmldoc = Ok (Some root) ->
  exists items,
    transform self xmldoc = Ok items /\
    length items = length (children root) /\
    forall i : nat,
      (i < length (children root))%nat ->
      items !! i = Some {[ _index_field self := VInt (Z.of_nat i) ]}.
Proof.
  intros Hnone Hroot.
  assert (Hitem : forall index item,
            transform_item self index item = Ok {[ _index_field self := VInt index ]}).
  { intros index item. unfold transform_item, update. rewrite Hnone. simpl.
    by rewrite (left_id_L ∅ (∪)). }
  rewrite (transform_resolved _ _ _ Hroot).
  destruct (transform_loop_Ok self (enumerate (children root)) []) as [items Hitems].
  { apply Forall_forall. intros [index item] _. simpl. rewrite Hitem. by eexists. }
  exists items. split; [done|].
  apply transform_loop_Ok_inv in Hitems as (rs & -> & Hrs). simpl.
  assert (Hlen : length rs = length (children root)).
  { rewrite <- (Forall2_length _ _ _ Hrs). unfold enumerate. apply enumerate_from_length. }
  split; [done|]. intros i Hi.
  destruct (lookup_lt_is_Some_2 (children root) i Hi) as [child Hchild].
  assert (Hpair : enumerate (children root) !! i = Some (Z.of_nat i, child)).
  { unfold enumerate. by rewrite enumerate_from_lookup, Hchild. }
  destruct (Forall2_lookup_l _ _ _ _ _ Hrs Hpair) as (r & Hr & Hrun).
  simpl in Hrun. rewrite Hitem in Hrun. by injection Hrun as <-.
Qed.

End TransformCases.

Section TransformOrder.
Context `{Library}.
Import XMLDocTransformer.

(** X14.  [transform] raises the error of the first extraction that
    fails, children taken in document order and fields in the order
    given: when every field succeeds on the children before [child] and
    the fields before [field] succeed on [child], the error of [field] on
    [child] is the error of [transform], whatever comes later. *)
Theorem transform_first_failure (self : XMLDocTransformer.t) (xmldoc : ElementTree)
    (root child : Element) (before after : list Element)
    (field : FieldExtractor.t) (fields1 fields2 : list FieldExtractor.t)
    (e : exception) :
  resolve_root self xmldoc = Ok (Some root) ->
  children root = before ++ child :: after ->
  _fields self = fields1 ++ field :: fields2 ->
  Forall (fun c =>
            Forall (fun f => is_Ok (FieldExtractor.extract f c)) (_fields self))
    before ->
  Forall (fun f => is_Ok (FieldExtractor.extract f child)) fields1 ->
  FieldExtractor.extract field child = Raise e ->
  transform self xmldoc = Raise e.
Proof.
  intros Hroot Hchildren Hfields Hbefore Hfields1 Hfail.
  rewrite (transform_resolved _ _ _ Hroot), Hchildren.
  unfold enumerate. rewrite enumerate_from_app. simpl.
  apply transform_loop_first_failure.
  - apply Forall_forall. intros [index item] Hin.
    apply list_elem_of_lookup in Hin as [i Hi].
    rewrite enumerate_from_lookup in Hi.
    destruct (before !! i) as [c|] eqn:Hc; [|done].
    injection Hi as <- <-. simpl. apply transform_item_Ok.
    eapply Forall_forall in Hbefore; [exact Hbefore|].
    apply list_elem_of_lookup. by exists i.
  - simpl. unfold transform_item. rewrite Hfields.
    by rewrite (dict_comprehension_first_failure _ _ _ _ _ _ Hfields1 Hfail).
Qed.

(** X15.  In every record that [transform] returns, the name of a field
    is mapped to the value extracted by the last field of that name:
    when no later field has the name of [field], the record of the i-th
    child holds what [field] extracts from that child -- also when the
    name is that of the index field. *)
Theorem transform_last_field_wins (self : XMLDocTransformer.t)
    (xmldoc : ElementTree) (root child : Element)
    (items : list (gmap string value)) (r : gmap string value) (i : nat)
    (field : FieldExtractor.t) (fields1 fields2 : list FieldExtractor.t) :
  transform self xmldoc = Ok items ->
  resolve_root self xmldoc = Ok (Some root) ->
  children root !! i = Some child ->
  items !! i = Some r ->
  _fields self = fields1 ++ field :: fields2 ->
  FieldExtractor.name field ∉ (FieldExtractor.name <$> fields2) ->
  exists v,
    FieldExtractor.extract field child = Ok v /\
    r !! FieldExtractor.name field = Some (VStr v).
Proof.
  intros Hrun Hroot Hchild Hr Hfields Hlast.
  rewrite (transform_resolved _ _ _ Hroot) in Hrun.
  apply transform_loop_Ok_inv in Hrun as (rs & -> & Hrs). simpl in Hr.
  assert (Hpair : enumerate (children root) !! i = Some (Z.of_nat i, child)).
  { unfold enumerate. by rewrite enumerate_from_lookup, Hchild. }
  pose proof (Forall2_lookup_lr _ _ _ _ _ _ Hrs Hpair Hr) as Hitem.
  simpl in Hitem. unfold transform_item in Hitem.
  apply bind_Ok_inv in Hitem as (other & Hother & [= <-]).
  rewrite Hfields in Hother.
  destruct (dict_comprehension_last _ _ _ _ _ _ Hother Hlast) as (v & Hv & Hlookup).
  exists v. split; [done|].
  unfold update. by rewrite (lookup_union_Some_l _ _ _ _ Hlookup).
Qed.

(** X16.  A transformer without root path whose fields all read
    attributes and have no format never fails: for every document it
    returns one record per child of the top-level node, missing
    attributes included. *)
Theorem transform_attributes_total (self : XMLDocTransformer.t)
    (xmldoc : ElementTree) :
  _root_path self = None ->
  Forall (fun f => FieldExtractor._source f = "attrib" /\
                   FieldExtractor._formatter f = FieldExtractor.builtin_str)
    (_fields self) ->
  exists items,
    transform self xmldoc = Ok items /\
    length items = length (children (getroot xmldoc)).
Proof.
  intros Hpath Hattrib.
  assert (Hroot : resolve_root self xmldoc = Ok (Some (getroot xmldoc))).
  { unfold resolve_root. by rewrite Hpath. }
  rewrite (transform_resolved _ _ _ Hroot).
  destruct (transform_loop_Ok self (enumerate (children (getroot xmldoc))) [])
    as [items Hitems].
  { apply Forall_forall. intros [index item] _. simpl.
    apply transform_item_Ok.
    eapply Forall_impl; [exact Hattrib|].
    intros f [Hsource Hformatter]. simpl.
    rewrite (extract_attrib_plain _ _ Hsource Hformatter). by eexists. }
  exists items. split; [done|].
  apply transform_loop_Ok_inv in Hitems as (rs & -> & Hrs). simpl.
  rewrite <- (Forall2_length _ _ _ Hrs).
  unfold enumerate. apply enumerate_from_length.
Qed.

End TransformOrder.

(** ** Further runs on the reference instance *)

Lemma transform_record_keys_witness :
  dom ({[ "ID" := VInt 0; "a" := VStr "1"; "v" := VStr "10" ]} : gmap string value)
  = list_to_set (XMLDocTransformer.field_names Reference.scenario_transformer).
Proof.
  apply (transform_record_keys Reference.scenario_transformer Reference.scenario_doc
           [ {[ "ID" := VInt 0; "a" := VStr "1"; "v" := VStr "10" ]};
             {[ "ID" := VInt 1; "a" := VStr "2"; "v" := VStr "20" ]} ]).
  - vm_compute. reflexivity.
  - apply elem_of_cons. by left.
Defined.

Lemma transform_length_witness :
  exists root,
    XMLDocTransformer.resolve_root Reference.shadow_transformer Reference.shadow_doc
    = Ok (Some root) /\
    length [ ({[ "ID" := VStr "x" ]} : gmap string value) ] = length (children root).
Proof.
  apply (transform_length Reference.shadow_transformer Reference.shadow_doc).
  vm_compute. reflexivity.
Defined.

Lemma transform_no_children_witness :
  XMLDocTransformer.transform Reference.failing_transformer Reference.empty_doc = Ok [].
Proof.
  apply (transform_no_children Reference.failing_transformer Reference.empty_doc
           (getroot Reference.empty_doc)); reflexivity.
Defined.

Lemma transform_no_fields_witness :
  exists items,
    XMLDocTransformer.transform Reference.bare_transformer Reference.scenario_doc
    = Ok items /\
    length items = length (children Reference.scenario_root) /\
    forall i : nat,
      (i < length (children Reference.scenario_root))%nat ->
      items !! i = Some {[ "ID" := VInt (Z.of_nat i) ]}.
Proof.
  apply (transform_no_fields Reference.bare_transformer Reference.scenario_doc
           Reference.scenario_root); reflexivity.
Defined.

Lemma transform_first_failure_witness :
  XMLDocTransformer.transform Reference.failing_transformer Reference.blank_doc
  = Raise (KeyError "missing").
Proof.
  apply (transform_first_failure Reference.failing_transformer Reference.blank_doc
           (getroot Reference.blank_doc) Reference.blank_item [] []
           Reference.text_missing [Reference.attrib_a] []).
  - reflexivity.
  - reflexivity.
  - reflexivity.
  - constructor.
  - repeat constructor. eexists. vm_compute. reflexivity.
  - reflexivity.
Defined.

Lemma transform_last_field_wins_witness :
  exists v,
    FieldExtractor.extract Reference.text_v
      (mkElement "item" {[ "a" := "2" ]} None [Reference.leaf "v" "20"]) = Ok v /\
    ({[ "ID" := VInt 1; "v" := VStr "20" ]} : gmap string value) !! "v"
    = Some (VStr v).
Proof.
  apply (transform_last_field_wins Reference.twice_transformer Reference.scenario_doc
           Reference.scenario_root _
           [ {[ "ID" := VInt 0; "v" := VStr "10" ]};
             {[ "ID" := VInt 1; "v" := VStr "20" ]} ] _ 1%nat
           Reference.text_v [FieldExtractor.__init__ "attrib" "v" None] []).
  - vm_compute. reflexivity.
  - reflexivity.
  - reflexivity.
  - reflexivity.
  - reflexivity.
  - apply not_elem_of_nil.
Defined.

Lemma transform_attributes_total_witness :
  exists items,
    XMLDocTransformer.transform Reference.attrib_transformer Reference.scenario_doc
    = Ok items /\
    length items = length (children (getroot Reference.scenario_doc)).
Proof.
  apply (transform_attributes_total Reference.attrib_transformer Reference.scenario_doc).
  - reflexivity.
  - repeat constructor.
Defined.

Example attributes_rows :
  XMLDocTransformer.transform Reference.attrib_transformer Reference.scenario_doc
  = Ok [ {[ "ID" := VInt 0; "a" := VStr "1"; "missing" := VStr "None" ]};
         {[ "ID" := VInt 1; "a" := VStr "2"; "missing" := VStr "None" ]} ].
Proof. vm_compute. reflexivity. Qed.
